(** * pdf2img: first page of a PDF to a PNG image

    A shallow embedding of [app/lib/pdf2img.ts] and the properties of its
    single entry point [convertPdfToImage].

    The function is glue between three collaborators: the pdf.js engine, the
    DOM canvas and the object-URL facility.  Their answers are not decided by
    this code, so they are gathered in a [Host] record of oracles; everything
    the function itself decides (the order of the calls, their arguments, the
    error strings, the file name, what is caught and what is not) is modelled
    below, statement by statement. *)

From Stdlib Require Import String Ascii List Bool Arith ZArith Lia.
From Stdlib Require Import PrimFloat FloatOps SpecFloat Uint63.
Import ListNotations.

Local Open Scope string_scope.

(** ** JavaScript values that the function handles *)

(** A JS [number] is a binary64 float: the scale [3], the quality [1.0] and
    the viewport's dimensions. *)
Definition number := float.

(** Binary contents ([ArrayBuffer], the bits of a [Blob]). *)
Definition Bytes := list Byte.byte.

(** What a [throw] or a rejected promise carries ([err: any] in the source).
    The platform and the engine raise [Error] objects (DOMException,
    TypeError, the exception classes of pdf.js), whose [name] and [message]
    are strings; a primitive string can be thrown as well and has no
    [message] property; [undefined] and [null] (a promise rejected without
    a reason) have no properties at all. *)
Inductive Thrown :=
| ErrorObject (name message : string)
| StringValue (s : string)
| UndefinedValue
| NullValue.

Module Err.
(** [err.message]: [None] is [undefined]. *)
Definition message (err : Thrown) : option string :=
  match err with
  | ErrorObject _ m => Some m
  | StringValue _ | UndefinedValue | NullValue => None
  end.

(** [undefined] and [null]: reading a property of either throws. *)
Definition isNullish (err : Thrown) : bool :=
  match err with
  | UndefinedValue | NullValue => true
  | ErrorObject _ _ | StringValue _ => false
  end.

(** The [TypeError] of reading [.message] of [undefined] or [null]; the
    wording of its message is the engine's (here V8's). *)
Definition cannotReadMessage (err : Thrown) : Thrown :=
  ErrorObject "TypeError"
    ("Cannot read properties of "
     ++ match err with NullValue => "null" | _ => "undefined" end
     ++ " (reading 'message')").

(** [String(err)]: [Error.prototype.toString] for an error object, the
    string itself for a primitive. *)
Definition toString (err : Thrown) : string :=
  match err with
  | ErrorObject n m =>
      if n =? "" then m
      else if m =? "" then n
      else n ++ ": " ++ m
  | StringValue s => s
  | UndefinedValue => "undefined"
  | NullValue => "null"
  end.

(** ToBoolean of [err.message]: [undefined] and the empty string are falsy. *)
Definition truthy (v : option string) : bool :=
  match v with
  | Some m => negb (m =? "")
  | None => false
  end.

(** The interpolated [${err.message || err}]. *)
Definition messageOrSelf (err : Thrown) : string :=
  if truthy (message err)
  then match message err with Some m => m | None => "" end
  else toString err.
End Err.

(** ** The regular expression [/\.pdf$/i] and [String.prototype.replace] *)

Module RegExp.
(** The pattern is a sequence of literal characters and the end-of-input
    assertion; there is no [m] flag, so [$] holds at the end of the string
    only. *)
Inductive Atom :=
| Char (c : ascii)
| EndOfInput.

(** Canonicalize under the [i] flag without [u]: the upper-case mapping,
    which leaves a code unit outside a-z alone as far as ASCII patterns are
    concerned. *)
Definition canonicalize (c : ascii) : ascii :=
  let n := nat_of_ascii c in
  if ((97 <=? n) && (n <=? 122))%nat then ascii_of_nat (n - 32) else c.

(** Match the pattern at the start of [s]; the result is what follows the
    match. *)
Fixpoint matchHere (p : list Atom) (s : string) : option string :=
  match p with
  | [] => Some s
  | EndOfInput :: p' =>
      match s with
      | EmptyString => matchHere p' s
      | String _ _ => None
      end
  | Char c :: p' =>
      match s with
      | EmptyString => None
      | String d s' =>
          if Ascii.eqb (canonicalize c) (canonicalize d)
          then matchHere p' s'
          else None
      end
  end.

(** [s.replace(re, replacement)] for a regular expression without the [g]
    flag: the leftmost match is replaced, the positions tried being
    0, 1, ..., length s. *)
Fixpoint replace (p : list Atom) (replacement : string) (s : string) : string :=
  match matchHere p s with
  | Some rest => replacement ++ rest
  | None =>
      match s with
      | EmptyString => EmptyString
      | String c s' => String c (replace p replacement s')
      end
  end.

(** [/\.pdf$/i] *)
Definition dotPdfAtEnd : list Atom :=
  [Char "."; Char "p"; Char "d"; Char "f"; EndOfInput]%char.
End RegExp.

(** [const baseName = file.name.replace(/\.pdf$/i, "")] *)
Definition baseName (name : string) : string :=
  RegExp.replace RegExp.dotPdfAtEnd "" name.

(** The template literal [`${baseName}.png`]. *)
Definition pngFileName (name : string) : string :=
  baseName name ++ ".png".

(** ** Objects of the platform and of the engine *)

Module File.
(** A DOM [File]: the input of the conversion and, on success, its output
    ([new File([blob], name, { type })]). *)
Record t := { name : string; type : string; bits : Bytes }.
End File.

Module Blob.
Record t := { type : string; bits : Bytes }.
End Blob.

(** Handles of the engine and the canvas; the function only passes them on. *)
Inductive PDFDocumentProxy := DocumentHandle (id : N).
Inductive PDFPageProxy := PageHandle (id : N).
Inductive CanvasRenderingContext2D := ContextHandle (id : N).

Module PageViewport.
Record t := { width : number; height : number }.
End PageViewport.

(** The integer part of a number (0 for NaN and the infinities). *)
Definition integerPart (x : number) : Z :=
  match Prim2SF x with
  | S754_finite negative m e =>
      let magnitude := Z.shiftl (Zpos m) e in
      if negative then (- magnitude)%Z else magnitude
  | S754_zero _ | S754_infinity _ | S754_nan => 0%Z
  end.

(** Web IDL's conversion of a JS number to an [unsigned long]. *)
Definition toUnsignedLong (x : number) : Z :=
  (integerPart x mod 2 ^ 32)%Z.

(** An [unsigned long] read back as a JS number. *)
Definition asNumber (n : Z) : number :=
  PrimFloat.of_uint63 (Uint63.of_Z n).

Module Canvas.
(** [HTMLCanvasElement.width] and [.height] are [unsigned long]. *)
Record t := { width : Z; height : Z }.
(** A canvas element as [document.createElement] leaves it. *)
Definition fresh : t := {| width := 300; height := 150 |}.
(** What [canvas.width = v] (or [.height]) stores: the number converted to
    an [unsigned long], or the attribute's default when that is above
    2147483647. *)
Definition assigned (default : Z) (v : number) : Z :=
  let n := toUnsignedLong v in
  if (n <=? 2147483647)%Z then n else default.
End Canvas.

(** [interface PdfConversionResult]; [error?: string] is optional. *)
Record PdfConversionResult := {
  imageUrl : string;
  file : option File.t;
  error : option string
}.

(** ** Completions, promises and the host *)

(** The outcome of a step: it returns (an awaited promise is fulfilled), it
    throws (the promise is rejected), or it never comes back (the promise
    is never settled). *)
Inductive Completion (A : Type) :=
| Normal (a : A)
| Throw (err : Thrown)
| Never.
Arguments Normal {A} a.
Arguments Throw {A} err.
Arguments Never {A}.

(** The final state of a promise; [Pending] is a promise that nothing will
    settle any more. *)
Inductive Settlement (A : Type) :=
| Fulfilled (v : A)
| Rejected (reason : Thrown)
| Pending.
Arguments Fulfilled {A} v.
Arguments Rejected {A} reason.
Arguments Pending {A}.

(** [canvas.toBlob(callback, type, quality)] throws at the call, or calls
    back, later, with a blob or with [null], or never calls back. *)
Inductive ToBlobOutcome :=
| ToBlobThrows (err : Thrown)
| ToBlobCallsBack (blob : option Blob.t)
| ToBlobNeverCallsBack.

(** The answers of the collaborators.  An awaited promise that rejects and a
    call that throws are both [Throw]: inside the [try] block the two are the
    same. *)
Record Host := {
  typeof_window : string;
  typeof_document : string;
  import_pdfjs : Completion unit;
  import_worker : Completion string;
  arrayBuffer : File.t -> Completion Bytes;
  getDocument : Bytes -> Completion PDFDocumentProxy;
  getPage : PDFDocumentProxy -> Z -> Completion PDFPageProxy;
  getViewport : PDFPageProxy -> number -> Completion PageViewport.t;
  getContext : string -> option CanvasRenderingContext2D;
  render : PDFPageProxy -> CanvasRenderingContext2D -> PageViewport.t -> Completion unit;
  toBlob : Canvas.t -> string -> number -> ToBlobOutcome;
  createObjectURL : Blob.t -> Completion string
}.

(** What the function does to its collaborators, in the order it does it. *)
Inductive Event :=
| EvImport (specifier : string)
| EvSetWorkerSrc (src : string)
| EvArrayBuffer (f : File.t)
| EvGetDocument (data : Bytes)
| EvGetPage (pdf : PDFDocumentProxy) (pageNumber : Z)
| EvGetViewport (page : PDFPageProxy) (scale : number)
| EvCreateElement (tag : string)
| EvGetContext (contextId : string)
| EvSetWidth (w : number)
| EvSetHeight (h : number)
| EvRender (page : PDFPageProxy) (context : CanvasRenderingContext2D) (viewport : PageViewport.t)
| EvToBlob (canvas : Canvas.t) (mime : string) (quality : number)
| EvCreateObjectURL (blob : Blob.t).

(** [pdfjsLib.GlobalWorkerOptions]: the one piece of state that outlives a
    call. *)
Record GlobalWorkerOptions := { workerSrc : option string }.

(** ** The monad of the function body: global options, a trace, exceptions *)

Record Run (A : Type) := {
  completion : Completion A;
  options : GlobalWorkerOptions;
  trace : list Event
}.
Arguments completion {A} r.
Arguments options {A} r.
Arguments trace {A} r.

Definition M (A : Type) : Type := GlobalWorkerOptions -> Run A.

Definition ret {A} (a : A) : M A :=
  fun g => {| completion := Normal a; options := g; trace := [] |}.

Definition throw {A} (err : Thrown) : M A :=
  fun g => {| completion := Throw err; options := g; trace := [] |}.

Definition bind {A B} (m : M A) (k : A -> M B) : M B :=
  fun g =>
    match m g with
    | {| completion := Normal a; options := g1; trace := t1 |} =>
        match k a g1 with
        | {| completion := c; options := g2; trace := t2 |} =>
            {| completion := c; options := g2; trace := t1 ++ t2 |}
        end
    | {| completion := Throw err; options := g1; trace := t1 |} =>
        {| completion := Throw err; options := g1; trace := t1 |}
    | {| completion := Never; options := g1; trace := t1 |} =>
        {| completion := Never; options := g1; trace := t1 |}
    end.

Declare Scope js_scope.
Delimit Scope js_scope with js.
Notation "x <- m ;; k" := (bind m (fun x => k))
  (at level 61, m at next level, right associativity) : js_scope.
Notation "m ;; k" := (bind m (fun _ => k))
  (at level 61, right associativity) : js_scope.
Local Open Scope js_scope.

Definition emit (e : Event) : M unit :=
  fun g => {| completion := Normal tt; options := g; trace := [e] |}.

(** The function is suspended for good. *)
Definition never {A} : M A :=
  fun g => {| completion := Never; options := g; trace := [] |}.

(** A call to a collaborator: it is recorded, then it returns, throws or
    never comes back. *)
Definition call {A} (e : Event) (answer : Completion A) : M A :=
  emit e ;;
  match answer with
  | Normal a => ret a
  | Throw err => throw err
  | Never => never
  end.

(** [GlobalWorkerOptions.workerSrc = src] *)
Definition setWorkerSrc (src : string) : M unit :=
  fun _ => {| completion := Normal tt;
              options := {| workerSrc := Some src |};
              trace := [EvSetWorkerSrc src] |}.

(** [try { m } catch (err) { handler err }] *)
Definition tryCatch {A} (m : M A) (handler : Thrown -> M A) : M A :=
  fun g =>
    match m g with
    | {| completion := Normal a; options := g1; trace := t1 |} =>
        {| completion := Normal a; options := g1; trace := t1 |}
    | {| completion := Throw err; options := g1; trace := t1 |} =>
        match handler err g1 with
        | {| completion := c; options := g2; trace := t2 |} =>
            {| completion := c; options := g2; trace := t1 ++ t2 |}
        end
    | {| completion := Never; options := g1; trace := t1 |} =>
        {| completion := Never; options := g1; trace := t1 |}
    end.

(** ** convertPdfToImage *)

Definition browserOnly : string :=
  "PDF conversion must run in the browser (DOM APIs not available).".

(** The callback handed to [canvas.toBlob] (lines 52-70), up to the value it
    passes to [resolve].  A [Throw] is an exception inside the callback:
    [resolve] is then never called. *)
Definition toBlobCallback (h : Host) (file : File.t) (blob : option Blob.t)
  : M PdfConversionResult :=
  match blob with
  | Some blob =>
      let baseName := baseName (File.name file) in
      let imageFile :=
        {| File.name := baseName ++ ".png";
           File.type := "image/png";
           File.bits := Blob.bits blob |} in
      url <- call (EvCreateObjectURL blob) (createObjectURL h blob) ;;
      ret {| imageUrl := url; file := Some imageFile; error := None |}
  | None =>
      ret {| imageUrl := ""; file := None;
             error := Some "Failed to create image blob" |}
  end.

(** [new Promise((resolve) => { canvas.toBlob(callback, "image/png", 1.0) })]
    (lines 50-74).  The constructor runs the executor at once and turns an
    exception of the executor into a rejection; the callback runs later, if
    ever, and only [resolve] settles the promise. *)
Definition newPromise (h : Host) (file : File.t) (canvas : Canvas.t)
  : M (Settlement PdfConversionResult) :=
  emit (EvToBlob canvas "image/png" 1%float) ;;
  match toBlob h canvas "image/png" 1%float with
  | ToBlobThrows err => ret (Rejected err)
  | ToBlobNeverCallsBack => ret Pending
  | ToBlobCallsBack blob =>
      fun g =>
        match toBlobCallback h file blob g with
        | {| completion := Normal result; options := g1; trace := t1 |} =>
            {| completion := Normal (Fulfilled result); options := g1;
               trace := t1 |}
        | {| completion := Throw _; options := g1; trace := t1 |}
        | {| completion := Never; options := g1; trace := t1 |} =>
            {| completion := Normal Pending; options := g1; trace := t1 |}
        end
  end.

(** The [try] block (lines 21-75); its value is the promise that the
    [return] statement hands back, given by its final state. *)
Definition tryBlock (h : Host) (file : File.t)
  : M (Settlement PdfConversionResult) :=
  _ <- call (EvImport "pdfjs-dist") (import_pdfjs h) ;;
  pdfWorker <- call (EvImport "pdfjs-dist/build/pdf.worker.min.mjs?url")
                    (import_worker h) ;;
  setWorkerSrc pdfWorker ;;
  buffer <- call (EvArrayBuffer file) (arrayBuffer h file) ;;
  pdf <- call (EvGetDocument buffer) (getDocument h buffer) ;;
  page <- call (EvGetPage pdf 1) (getPage h pdf 1) ;;
  let scale := 3%float in
  viewport <- call (EvGetViewport page scale) (getViewport h page scale) ;;
  emit (EvCreateElement "canvas") ;;
  let canvas := Canvas.fresh in
  context <- call (EvGetContext "2d") (Normal (getContext h "2d")) ;;
  match context with
  | None => throw (ErrorObject "Error" "Failed to get 2D canvas context")
  | Some context =>
      emit (EvSetWidth (PageViewport.width viewport)) ;;
      let canvas :=
        {| Canvas.width := Canvas.assigned 300 (PageViewport.width viewport);
           Canvas.height := Canvas.height canvas |} in
      emit (EvSetHeight (PageViewport.height viewport)) ;;
      let canvas :=
        {| Canvas.width := Canvas.width canvas;
           Canvas.height := Canvas.assigned 150 (PageViewport.height viewport) |} in
      call (EvRender page context viewport) (render h page context viewport) ;;
      newPromise h file canvas
  end.

(** The body of the async function (lines 11-82). *)
Definition convertPdfToImage (h : Host) (file : File.t)
  : M (Settlement PdfConversionResult) :=
  if (typeof_window h =? "undefined") || (typeof_document h =? "undefined")
  then
    ret (Fulfilled {| imageUrl := ""; file := None; error := Some browserOnly |})
  else
    tryCatch (tryBlock h file)
      (fun err =>
         if Err.isNullish err
         then throw (Err.cannotReadMessage err)
         else
           ret (Fulfilled
                  {| imageUrl := ""; file := None;
                     error := Some ("Failed to convert PDF: "
                                    ++ Err.messageOrSelf err) |})).

(** The promise an async function returns follows the value its body
    returns, is rejected with whatever the body throws, and stays pending
    when the body is suspended for good. *)
Definition settled {A} (r : Run (Settlement A)) : Settlement A :=
  match completion r with
  | Normal s => s
  | Throw err => Rejected err
  | Never => Pending
  end.

(** ** Sample files and hosts *)

Module Sample.
Definition pngBlob : Blob.t :=
  {| Blob.type := "image/png"; Blob.bits := [Byte.x89; Byte.x50; Byte.x4e; Byte.x47] |}.

Definition invoice : File.t :=
  {| File.name := "invoice.PDF"; File.type := "application/pdf";
     File.bits := [Byte.x25; Byte.x50; Byte.x44; Byte.x46] |}.

Definition workerUrl : string := "/assets/pdf.worker.min-abc123.mjs".

(** US Letter at scale 3. *)
Definition letter : PageViewport.t :=
  {| PageViewport.width := 1836%float; PageViewport.height := 2376%float |}.

(** A browser in which every step succeeds. *)
Definition browser : Host :=
  {| typeof_window := "object";
     typeof_document := "object";
     import_pdfjs := Normal tt;
     import_worker := Normal workerUrl;
     arrayBuffer := fun f => Normal (File.bits f);
     getDocument := fun _ => Normal (DocumentHandle 1);
     getPage := fun _ n =>
       if (n =? 1)%Z then Normal (PageHandle 1)
       else Throw (ErrorObject "Error" "Invalid page request.");
     getViewport := fun _ _ => Normal letter;
     getContext := fun _ => Some (ContextHandle 1);
     render := fun _ _ _ => Normal tt;
     toBlob := fun _ _ _ => ToBlobCallsBack (Some pngBlob);
     createObjectURL := fun _ =>
       Normal "blob:http://localhost:5173/6a1f0c3e" |}.

Definition withToBlob (answer : ToBlobOutcome) (h : Host) : Host :=
  {| typeof_window := typeof_window h;
     typeof_document := typeof_document h;
     import_pdfjs := import_pdfjs h;
     import_worker := import_worker h;
     arrayBuffer := arrayBuffer h;
     getDocument := getDocument h;
     getPage := getPage h;
     getViewport := getViewport h;
     getContext := getContext h;
     render := render h;
     toBlob := fun _ _ _ => answer;
     createObjectURL := createObjectURL h |}.

Definition withCreateObjectURL (answer : Completion string) (h : Host) : Host :=
  {| typeof_window := typeof_window h;
     typeof_document := typeof_document h;
     import_pdfjs := import_pdfjs h;
     import_worker := import_worker h;
     arrayBuffer := arrayBuffer h;
     getDocument := getDocument h;
     getPage := getPage h;
     getViewport := getViewport h;
     getContext := getContext h;
     render := render h;
     toBlob := toBlob h;
     createObjectURL := fun _ => answer |}.

Definition withGetContext (answer : option CanvasRenderingContext2D) (h : Host) : Host :=
  {| typeof_window := typeof_window h;
     typeof_document := typeof_document h;
     import_pdfjs := import_pdfjs h;
     import_worker := import_worker h;
     arrayBuffer := arrayBuffer h;
     getDocument := getDocument h;
     getPage := getPage h;
     getViewport := getViewport h;
     getContext := fun _ => answer;
     render := render h;
     toBlob := toBlob h;
     createObjectURL := createObjectURL h |}.

(** Server-side rendering: no [window], no [document]. *)
Definition server : Host :=
  {| typeof_window := "undefined";
     typeof_document := "undefined";
     import_pdfjs := import_pdfjs browser;
     import_worker := import_worker browser;
     arrayBuffer := arrayBuffer browser;
     getDocument := getDocument browser;
     getPage := getPage browser;
     getViewport := getViewport browser;
     getContext := getContext browser;
     render := render browser;
     toBlob := toBlob browser;
     createObjectURL := createObjectURL browser |}.

(** A canvas whose export is refused at the call. *)
Definition securityError : Thrown :=
  ErrorObject "SecurityError" "The operation is insecure.".
Definition tainted : Host := withToBlob (ToBlobThrows securityError) browser.

(** A DOM without an object-URL facility (as in jsdom): the call to
    [URL.createObjectURL] throws inside the callback. *)
Definition notAFunction : Thrown :=
  ErrorObject "TypeError" "URL.createObjectURL is not a function".
Definition noObjectUrls : Host := withCreateObjectURL (Throw notAFunction) browser.

Definition noContext : Host := withGetContext None browser.
Definition nullBlob : Host := withToBlob (ToBlobCallsBack None) browser.

Definition withGetDocument (answer : Completion PDFDocumentProxy) (h : Host) : Host :=
  {| typeof_window := typeof_window h;
     typeof_document := typeof_document h;
     import_pdfjs := import_pdfjs h;
     import_worker := import_worker h;
     arrayBuffer := arrayBuffer h;
     getDocument := fun _ => answer;
     getPage := getPage h;
     getViewport := getViewport h;
     getContext := getContext h;
     render := render h;
     toBlob := toBlob h;
     createObjectURL := createObjectURL h |}.

(** An engine that rejects with an error that has no message, and one that
    rejects with a bare string. *)
Definition aborted : Host :=
  withGetDocument (Throw (ErrorObject "AbortError" "")) browser.
Definition bareString : Host :=
  withGetDocument (Throw (StringValue "worker terminated")) browser.

(** An engine whose document promise is rejected without a reason, and one
    whose document promise is never settled. *)
Definition noReason : Host := withGetDocument (Throw UndefinedValue) browser.
Definition hung : Host := withGetDocument Never browser.

(** A canvas that never calls back. *)
Definition silent : Host := withToBlob ToBlobNeverCallsBack browser.

(** An A4 page at scale 3: 1785.828 by 2525.67. *)
Definition a4 : PageViewport.t :=
  {| PageViewport.width := (1785828 / 1000)%float;
     PageViewport.height := (252567 / 100)%float |}.
Definition withGetViewport (answer : Completion PageViewport.t) (h : Host) : Host :=
  {| typeof_window := typeof_window h;
     typeof_document := typeof_document h;
     import_pdfjs := import_pdfjs h;
     import_worker := import_worker h;
     arrayBuffer := arrayBuffer h;
     getDocument := getDocument h;
     getPage := getPage h;
     getViewport := fun _ _ => answer;
     getContext := getContext h;
     render := render h;
     toBlob := toBlob h;
     createObjectURL := createObjectURL h |}.
Definition a4Browser : Host := withGetViewport (Normal a4) browser.

(** Files with other names. *)
Definition named (name : string) : File.t :=
  {| File.name := name; File.type := "application/pdf";
     File.bits := File.bits invoice |}.

Definition unset : GlobalWorkerOptions := {| workerSrc := None |}.
Definition alreadySet : GlobalWorkerOptions := {| workerSrc := Some workerUrl |}.
End Sample.

(** ** The words of the specification *)

(** "stripping a trailing .pdf extension (case-insensitive)": an extension
    is the four characters [.pdf] in any casing. *)
Definition lower (c : ascii) : ascii :=
  let n := nat_of_ascii c in
  if ((65 <=? n) && (n <=? 90))%nat then ascii_of_nat (n + 32) else c.

Fixpoint lowerString (s : string) : string :=
  match s with
  | EmptyString => EmptyString
  | String c s' => String (lower c) (lowerString s')
  end.

Definition isPdfExtension (ext : string) : bool :=
  lowerString ext =? ".pdf".

(** The name ends with such an extension: one of its suffixes is one. *)
Fixpoint endsWithPdf (name : string) : bool :=
  isPdfExtension name
  || match name with
     | EmptyString => false
     | String _ rest => endsWithPdf rest
     end.

Definition stripPdfSpec (name : string) : string :=
  if endsWithPdf name
  then substring 0 (String.length name - 4) name
  else name.

Definition derivedNameSpec (name : string) : string :=
  stripPdfSpec name ++ ".png".

(** The two shapes of a result. *)
Definition successTriple (r : PdfConversionResult) : Prop :=
  imageUrl r <> "" /\ file r <> None /\ error r = None.

Definition failurePair (r : PdfConversionResult) : Prop :=
  imageUrl r = "" /\ file r = None /\
  exists message, error r = Some message /\ message <> "".

(** The contract of [URL.createObjectURL]: a blob URL, never the empty
    string. *)
Definition objectUrlsNonEmpty (h : Host) : Prop :=
  forall blob url, createObjectURL h blob = Normal url -> url <> "".

(** An event that is part of registering the worker source: loading the
    worker asset or writing the slot. *)
Definition isRegistration (e : Event) : bool :=
  match e with
  | EvImport specifier => specifier =? "pdfjs-dist/build/pdf.worker.min.mjs?url"
  | EvSetWorkerSrc _ => true
  | _ => false
  end.

(** What the host answers to a step of the [try] block that precedes the
    [return] statement, read off the step's event; [None] for the events
    that are no such step. *)
Inductive StepOutcome :=
| Returned
| Threw (err : Thrown)
| NeverSettled.

Definition outcomeOf {A} (answer : Completion A) : option StepOutcome :=
  Some match answer with
       | Normal _ => Returned
       | Throw err => Threw err
       | Never => NeverSettled
       end.

Definition stepOutcome (h : Host) (e : Event) : option StepOutcome :=
  match e with
  | EvImport specifier =>
      if specifier =? "pdfjs-dist" then outcomeOf (import_pdfjs h)
      else if specifier =? "pdfjs-dist/build/pdf.worker.min.mjs?url"
           then outcomeOf (import_worker h)
           else None
  | EvArrayBuffer f => outcomeOf (arrayBuffer h f)
  | EvGetDocument data => outcomeOf (getDocument h data)
  | EvGetPage pdf pageNumber => outcomeOf (getPage h pdf pageNumber)
  | EvGetViewport page scale => outcomeOf (getViewport h page scale)
  | EvRender page context viewport =>
      outcomeOf (render h page context viewport)
  | _ => None
  end.

(** [a === b] on numbers. *)
Definition strictEquals (a b : number) : bool := PrimFloat.eqb a b.

(** The events that come after the check of the 2D context (lines 43-73). *)
Definition afterContextCheck (e : Event) : bool :=
  match e with
  | EvSetWidth _ | EvSetHeight _ | EvRender _ _ _
  | EvToBlob _ _ _ | EvCreateObjectURL _ => true
  | _ => false
  end.

(** ** The file name *)

Ltac by_cases_on_ascii d :=
  destruct d as [[] [] [] [] [] [] [] []]; vm_compute; reflexivity.

Lemma canonicalize_dot d :
  Ascii.eqb (RegExp.canonicalize ".") (RegExp.canonicalize d) = Ascii.eqb (lower d) ".".
Proof. by_cases_on_ascii d. Qed.

Lemma canonicalize_p d :
  Ascii.eqb (RegExp.canonicalize "p") (RegExp.canonicalize d) = Ascii.eqb (lower d) "p".
Proof. by_cases_on_ascii d. Qed.

Lemma canonicalize_d d :
  Ascii.eqb (RegExp.canonicalize "d") (RegExp.canonicalize d) = Ascii.eqb (lower d) "d".
Proof. by_cases_on_ascii d. Qed.

Lemma canonicalize_f d :
  Ascii.eqb (RegExp.canonicalize "f") (RegExp.canonicalize d) = Ascii.eqb (lower d) "f".
Proof. by_cases_on_ascii d. Qed.

(** The pattern matches at a position exactly when what is left of the name
    there is an extension, and the match goes to the end. *)
Lemma matchHere_dotPdfAtEnd s :
  RegExp.matchHere RegExp.dotPdfAtEnd s
  = if isPdfExtension s then Some "" else None.
Proof.
  unfold RegExp.dotPdfAtEnd, isPdfExtension.
  destruct s as [|a s]; [reflexivity|].
  cbn [RegExp.matchHere lowerString String.eqb].
  rewrite canonicalize_dot. destruct (Ascii.eqb (lower a) "."); [|reflexivity].
  destruct s as [|b s]; [reflexivity|].
  cbn [RegExp.matchHere lowerString String.eqb].
  rewrite canonicalize_p. destruct (Ascii.eqb (lower b) "p"); [|reflexivity].
  destruct s as [|c s]; [reflexivity|].
  cbn [RegExp.matchHere lowerString String.eqb].
  rewrite canonicalize_d. destruct (Ascii.eqb (lower c) "d"); [|reflexivity].
  destruct s as [|d s]; [reflexivity|].
  cbn [RegExp.matchHere lowerString String.eqb].
  rewrite canonicalize_f. destruct (Ascii.eqb (lower d) "f"); [|reflexivity].
  destruct s; reflexivity.
Qed.

Lemma lowerString_length s : String.length (lowerString s) = String.length s.
Proof. induction s; simpl; congruence. Qed.

Lemma isPdfExtension_length ext :
  isPdfExtension ext = true -> String.length ext = 4.
Proof.
  unfold isPdfExtension. intros H. apply String.eqb_eq in H.
  rewrite <- (lowerString_length ext), H. reflexivity.
Qed.

Lemma append_length (a b : string) :
  String.length (a ++ b) = String.length a + String.length b.
Proof. induction a; simpl; congruence. Qed.

Lemma append_empty_r (a : string) : a ++ "" = a.
Proof. induction a; simpl; congruence. Qed.

Lemma substring_prefix (a b : string) :
  substring 0 (String.length a) (a ++ b) = a.
Proof.
  induction a as [|c a IH]; simpl.
  - destruct b; reflexivity.
  - now rewrite IH.
Qed.

(** An extension at the end is removed, and what precedes it is kept. *)
Lemma baseName_app base ext :
  isPdfExtension ext = true -> baseName (base ++ ext) = base.
Proof.
  intros Hext. unfold baseName.
  induction base as [|c base IH].
  - cbn [append]. destruct ext as [|e ext].
    + discriminate.
    + cbn [RegExp.replace]. rewrite matchHere_dotPdfAtEnd, Hext. reflexivity.
  - cbn [append RegExp.replace]. rewrite matchHere_dotPdfAtEnd.
    destruct (isPdfExtension (String c (base ++ ext))) eqn:E.
    + apply isPdfExtension_length in E. apply isPdfExtension_length in Hext.
      cbn [String.length] in E. rewrite append_length in E. lia.
    + now rewrite IH.
Qed.

(** A name that does not end with an extension is left as it is. *)
Lemma baseName_other name :
  endsWithPdf name = false -> baseName name = name.
Proof.
  unfold baseName. induction name as [|c name IH]; intros H.
  - reflexivity.
  - cbn [endsWithPdf] in H. apply orb_false_iff in H. destruct H as [H1 H2].
    cbn [RegExp.replace]. rewrite matchHere_dotPdfAtEnd, H1.
    now rewrite IH.
Qed.

Lemma endsWithPdf_split name :
  endsWithPdf name = true ->
  exists base ext, name = base ++ ext /\ isPdfExtension ext = true.
Proof.
  induction name as [|c name IH]; cbn [endsWithPdf]; intros H.
  - rewrite orb_false_r in H. discriminate.
  - apply orb_true_iff in H. destruct H as [H|H].
    + exists "", (String c name). split; [reflexivity|assumption].
    + destruct (IH H) as (base & ext & -> & Hext).
      exists (String c base), ext. split; [reflexivity|assumption].
Qed.

Lemma endsWithPdf_app base ext :
  isPdfExtension ext = true -> endsWithPdf (base ++ ext) = true.
Proof.
  intros H. induction base as [|c base IH]; cbn [append].
  - destruct ext; cbn [endsWithPdf]; rewrite H; reflexivity.
  - cbn [endsWithPdf]. rewrite IH. apply orb_true_r.
Qed.

(** The replacement of the source does what the specification's words say. *)
Lemma baseName_spec name : baseName name = stripPdfSpec name.
Proof.
  unfold stripPdfSpec. destruct (endsWithPdf name) eqn:E.
  - destruct (endsWithPdf_split _ E) as (base & ext & -> & Hext).
    rewrite (baseName_app _ _ Hext), append_length,
      (isPdfExtension_length _ Hext).
    replace (String.length base + 4 - 4) with (String.length base) by lia.
    now rewrite substring_prefix.
  - now apply baseName_other.
Qed.

(** ** Running the function against an arbitrary host *)

Ltac unfold_run :=
  cbv beta iota zeta delta
    [convertPdfToImage tryCatch tryBlock newPromise toBlobCallback
     bind call emit ret throw never setWorkerSrc settled
     completion options trace app].

(** One question to the host: split on its answer. *)
Ltac ask_host :=
  match goal with
  | |- context [orb (String.eqb (typeof_window ?h) ?u) ?b] =>
      destruct (orb (String.eqb (typeof_window h) u) b) eqn:?
  | |- context [match import_pdfjs ?h with _ => _ end] =>
      destruct (import_pdfjs h) eqn:?
  | |- context [match import_worker ?h with _ => _ end] =>
      destruct (import_worker h) eqn:?
  | |- context [match arrayBuffer ?h ?f with _ => _ end] =>
      destruct (arrayBuffer h f) eqn:?
  | |- context [match getDocument ?h ?b with _ => _ end] =>
      destruct (getDocument h b) eqn:?
  | |- context [match getPage ?h ?d ?n with _ => _ end] =>
      destruct (getPage h d n) eqn:?
  | |- context [match getViewport ?h ?p ?s with _ => _ end] =>
      destruct (getViewport h p s) eqn:?
  | |- context [match getContext ?h ?i with _ => _ end] =>
      destruct (getContext h i) eqn:?
  | |- context [match render ?h ?p ?c ?v with _ => _ end] =>
      destruct (render h p c v) eqn:?
  | |- context [match toBlob ?h ?c ?m ?q with _ => _ end] =>
      destruct (toBlob h c m q) as [?|[?|]|] eqn:?
  | |- context [match createObjectURL ?h ?b with _ => _ end] =>
      destruct (createObjectURL h b) eqn:?
  | |- context [Err.isNullish ?err] =>
      is_var err; destruct err; cbn [Err.isNullish]
  end.

Ltac run_host := unfold_run; repeat (ask_host; unfold_run).

(** Membership in a trace that has been computed. *)
Ltac in_trace H :=
  repeat (destruct H as [H|H]; [try discriminate H|]); try contradiction H.

(** Close a goal [In e l] on a computed trace. *)
Ltac found_in_trace :=
  vm_compute; repeat (first [left; reflexivity | right]).

(** ** C3: outside the browser *)

(** C3. When [window] or [document] is unavailable, the call resolves to the
    failure result with the fixed browser-only message, an empty [imageUrl]
    and a null [file]; it calls none of its collaborators (the trace is
    empty: nothing is imported, no engine or canvas operation happens) and
    leaves the engine's options as they were. *)
Theorem non_browser_fails_before_any_call h file g :
  typeof_window h = "undefined" \/ typeof_document h = "undefined" ->
  convertPdfToImage h file g
  = {| completion :=
         Normal (Fulfilled
           {| imageUrl := "";
              file := None;
              error := Some "PDF conversion must run in the browser (DOM APIs not available)." |});
       options := g;
       trace := [] |}.
Proof.
  intros H. unfold convertPdfToImage.
  replace ((typeof_window h =? "undefined") || (typeof_document h =? "undefined"))
    with true; [reflexivity|].
  symmetry. apply orb_true_iff.
  destruct H as [H|H]; [left|right]; now apply String.eqb_eq.
Qed.

Lemma non_browser_fails_before_any_call_witness :
  typeof_window Sample.server = "undefined" /\
  settled (convertPdfToImage Sample.server Sample.invoice Sample.alreadySet)
  = Fulfilled
      {| imageUrl := ""; file := None;
         error := Some "PDF conversion must run in the browser (DOM APIs not available)." |} /\
  trace (convertPdfToImage Sample.server Sample.invoice Sample.alreadySet) = [].
Proof.
  split; [reflexivity|].
  rewrite (non_browser_fails_before_any_call Sample.server Sample.invoice
             Sample.alreadySet (or_introl eq_refl)).
  split; reflexivity.
Defined.

(** ** C6: the encoder yields no data *)

(** C6. On a call that reaches the export, if [canvas.toBlob] calls back
    with [null], the call resolves to the failure result whose error is
    exactly "Failed to create image blob", with an empty [imageUrl] and a
    null [file]. *)
Theorem null_blob_reported h file g canvas mime quality :
  In (EvToBlob canvas mime quality) (trace (convertPdfToImage h file g)) ->
  toBlob h canvas mime quality = ToBlobCallsBack None ->
  settled (convertPdfToImage h file g)
  = Fulfilled {| imageUrl := ""; file := None;
                 error := Some "Failed to create image blob" |}.
Proof.
  intros Hin Hnull. revert Hin. run_host; intros Hin; in_trace Hin.
  all: try reflexivity.
  all: injection Hin as <- <- <-; cbn [Canvas.width Canvas.height] in *; congruence.
Qed.

Lemma null_blob_reported_witness :
  settled (convertPdfToImage Sample.nullBlob Sample.invoice Sample.unset)
  = Fulfilled {| imageUrl := ""; file := None;
                 error := Some "Failed to create image blob" |}.
Proof.
  apply (null_blob_reported Sample.nullBlob Sample.invoice Sample.unset
           {| Canvas.width := 1836; Canvas.height := 2376 |}
           "image/png" 1%float).
  - found_in_trace.
  - reflexivity.
Defined.

(** ** C7: no 2D context *)

(** C7. On a call that asks for the 2D context and gets [null], the call
    fails with the error "Failed to get 2D canvas context": the [try] block
    throws an [Error] with that message, and the catch clause reports it,
    behind its prefix, in the failure result, with an empty [imageUrl] and a
    null [file]. *)
Theorem no_context_wrapped h file g contextId :
  In (EvGetContext contextId) (trace (convertPdfToImage h file g)) ->
  getContext h contextId = None ->
  completion (tryBlock h file g)
  = Throw (ErrorObject "Error" "Failed to get 2D canvas context") /\
  settled (convertPdfToImage h file g)
  = Fulfilled
      {| imageUrl := ""; file := None;
         error := Some "Failed to convert PDF: Failed to get 2D canvas context" |}.
Proof.
  intros Hin Hnull. revert Hin. run_host; intros Hin; in_trace Hin.
  all: try (split; reflexivity).
  all: injection Hin as <-; congruence.
Qed.

Lemma no_context_wrapped_witness :
  settled (convertPdfToImage Sample.noContext Sample.invoice Sample.unset)
  = Fulfilled
      {| imageUrl := ""; file := None;
         error := Some "Failed to convert PDF: Failed to get 2D canvas context" |}.
Proof.
  apply (no_context_wrapped Sample.noContext Sample.invoice Sample.unset "2d").
  - found_in_trace.
  - reflexivity.
Defined.

(** ** C1: the two shapes of a result *)

Lemma failure_shape message :
  message <> "" ->
  let r := {| imageUrl := ""; file := None; error := Some message |} in
  (successTriple r /\ ~ failurePair r) \/ (failurePair r /\ ~ successTriple r).
Proof.
  intros Hm r. right. split.
  - repeat split. exists message. now split.
  - intros (Hurl & _). now apply Hurl.
Qed.

Lemma success_shape url f :
  url <> "" ->
  let r := {| imageUrl := url; file := Some f; error := None |} in
  (successTriple r /\ ~ failurePair r) \/ (failurePair r /\ ~ successTriple r).
Proof.
  intros Hu r. left. split.
  - repeat split; [assumption|discriminate].
  - intros (Hurl & _). now apply Hu.
Qed.

(** C1. Whatever the host answers, provided its object URLs are never the
    empty string, a result the call resolves to is either the success
    triple ([imageUrl] non-empty, [file] non-null, [error] absent) or the
    failure pair ([imageUrl] empty, [file] null, [error] a non-empty
    string), and never both. *)
Theorem result_shape_exclusive h file g r :
  objectUrlsNonEmpty h ->
  settled (convertPdfToImage h file g) = Fulfilled r ->
  (successTriple r /\ ~ failurePair r) \/ (failurePair r /\ ~ successTriple r).
Proof.
  intros Hurl. run_host; intros Hr; try discriminate Hr; injection Hr as <-.
  all: try (apply failure_shape; discriminate).
  apply success_shape. eapply Hurl. eassumption.
Qed.

Lemma result_shape_exclusive_witness :
  exists r,
    settled (convertPdfToImage Sample.browser Sample.invoice Sample.unset)
    = Fulfilled r /\
    ((successTriple r /\ ~ failurePair r) \/ (failurePair r /\ ~ successTriple r)).
Proof.
  eexists. split; [reflexivity|].
  apply (result_shape_exclusive Sample.browser Sample.invoice Sample.unset).
  - intros blob url H. injection H as <-. discriminate.
  - reflexivity.
Defined.

(** ** C2 and C5: exceptions of the export step *)

(** C2, at the failing input. The [try] block returns the promise without
    awaiting it, so the [catch] clause does not see what happens to it: when
    [canvas.toBlob] throws, the promise of the call is rejected with that
    exception, and when the callback throws (here at
    [URL.createObjectURL]) the promise is never settled.  Neither call
    resolves to a result. *)
Theorem export_exception_escapes :
  settled (convertPdfToImage Sample.tainted Sample.invoice Sample.unset)
  = Rejected Sample.securityError /\
  settled (convertPdfToImage Sample.noObjectUrls Sample.invoice Sample.unset)
  = Pending.
Proof. split; reflexivity. Qed.

(** C5, at the failing input. An exception raised by [canvas.toBlob], after
    the environment check, is not reported as "Failed to convert PDF: "
    followed by its message: the call is rejected with the exception
    itself. *)
Theorem export_exception_not_prefixed :
  settled (convertPdfToImage Sample.tainted Sample.invoice Sample.unset)
  <> Fulfilled
       {| imageUrl := ""; file := None;
          error := Some ("Failed to convert PDF: "
                         ++ Err.messageOrSelf Sample.securityError) |} /\
  forall r,
    settled (convertPdfToImage Sample.tainted Sample.invoice Sample.unset)
    <> Fulfilled r.
Proof. split; [|intros r]; vm_compute; discriminate. Qed.

(** ** C4 and C10: the name and type of the image file *)

(** C4. On a successful conversion the file's name is the input name with a
    trailing [.pdf], in any casing, stripped and [.png] appended, and its
    type is "image/png"; "invoice.PDF" gives "invoice.png" and "report"
    gives "report.png". *)
Theorem success_file_name_and_type h input g r f :
  settled (convertPdfToImage h input g) = Fulfilled r ->
  file r = Some f ->
  File.name f = derivedNameSpec (File.name input) /\
  File.type f = "image/png" /\
  (File.name input = "invoice.PDF" -> File.name f = "invoice.png") /\
  (File.name input = "report" -> File.name f = "report.png").
Proof.
  assert (Hname : File.name f = derivedNameSpec (File.name input) ->
                  File.type f = "image/png" ->
                  File.name f = derivedNameSpec (File.name input) /\
                  File.type f = "image/png" /\
                  (File.name input = "invoice.PDF" -> File.name f = "invoice.png") /\
                  (File.name input = "report" -> File.name f = "report.png")).
  { intros H1 H2. repeat split; try assumption; intros E; rewrite H1, E; reflexivity. }
  run_host; intros Hr Hf; try discriminate Hr; injection Hr as <-;
    try discriminate Hf.
  injection Hf as <-. apply Hname; cbn [File.name File.type].
  - unfold derivedNameSpec. now rewrite baseName_spec.
  - reflexivity.
Qed.

Lemma success_file_name_and_type_witness :
  exists r f,
    settled (convertPdfToImage Sample.browser Sample.invoice Sample.unset)
    = Fulfilled r /\
    file r = Some f /\
    File.name f = "invoice.png" /\ File.type f = "image/png".
Proof.
  eexists. eexists. split; [reflexivity|]. split; [reflexivity|].
  destruct (success_file_name_and_type Sample.browser Sample.invoice
              Sample.unset _ _ eq_refl eq_refl) as (_ & Htype & Hinvoice & _).
  split; [exact (Hinvoice eq_refl)|exact Htype].
Defined.

(** C10. The name of the file a successful conversion produces is the
    input name with at most one trailing [.pdf] removed, and nothing else
    touched, and [.png] appended: an extension at the very end is dropped
    and all that precedes it is kept, also when that ends with [.pdf]
    itself ("report.pdf.pdf" gives "report.pdf.png"); a name that does not
    end with the extension is kept whole ("photo.png" gives
    "photo.png.png"), whatever [.pdf] it has elsewhere. *)
Theorem output_name_strips_one_suffix h input g r f :
  settled (convertPdfToImage h input g) = Fulfilled r ->
  file r = Some f ->
  (forall base ext,
      File.name input = base ++ ext -> isPdfExtension ext = true ->
      File.name f = base ++ ".png") /\
  (endsWithPdf (File.name input) = false ->
   File.name f = File.name input ++ ".png") /\
  (File.name input = "report.pdf.pdf" -> File.name f = "report.pdf.png") /\
  (File.name input = "photo.png" -> File.name f = "photo.png.png") /\
  (File.name input = "my.pdf.backup" -> File.name f = "my.pdf.backup.png").
Proof.
  assert (Hname : File.name f = baseName (File.name input) ++ ".png" ->
    (forall base ext,
        File.name input = base ++ ext -> isPdfExtension ext = true ->
        File.name f = base ++ ".png") /\
    (endsWithPdf (File.name input) = false ->
     File.name f = File.name input ++ ".png") /\
    (File.name input = "report.pdf.pdf" -> File.name f = "report.pdf.png") /\
    (File.name input = "photo.png" -> File.name f = "photo.png.png") /\
    (File.name input = "my.pdf.backup" -> File.name f = "my.pdf.backup.png")).
  { intros ->. split; [|split].
    - intros base ext -> Hext. now rewrite baseName_app.
    - intros Hother. now rewrite baseName_other.
    - repeat split; intros ->; reflexivity. }
  run_host; intros Hr Hf; try discriminate Hr; injection Hr as <-;
    try discriminate Hf.
  injection Hf as <-. apply Hname. reflexivity.
Qed.

Lemma output_name_strips_one_suffix_witness :
  exists r f,
    settled (convertPdfToImage Sample.browser (Sample.named "report.pdf.pdf")
               Sample.unset) = Fulfilled r /\
    file r = Some f /\
    File.name f = "report.pdf.png".
Proof.
  eexists. eexists. split; [reflexivity|]. split; [reflexivity|].
  destruct (output_name_strips_one_suffix Sample.browser
              (Sample.named "report.pdf.pdf") Sample.unset _ _ eq_refl eq_refl)
    as (_ & _ & Hdoubled & _).
  exact (Hdoubled eq_refl).
Defined.

(** ** C8: what is rendered, and into what *)

Lemma assigned_integerPart default v :
  (0 <= integerPart v <= 2147483647)%Z ->
  Canvas.assigned default v = integerPart v.
Proof.
  intros Hrange. unfold Canvas.assigned, toUnsignedLong.
  rewrite Z.mod_small by lia.
  destruct (Z.leb_spec (integerPart v) 2147483647); [reflexivity|lia].
Qed.

(** C8, as stated, fails: for an A4 page the viewport at scale 3 is
    1785.828 by 2525.67, the call reaches the render, and the canvas it
    rendered into and exports is 1785 by 2525, which is not the viewport's
    width and height. *)
Lemma a4_canvas_is_not_the_viewport :
  In (EvRender (PageHandle 1) (ContextHandle 1) Sample.a4)
     (trace (convertPdfToImage Sample.a4Browser Sample.invoice Sample.unset)) /\
  In (EvToBlob {| Canvas.width := 1785; Canvas.height := 2525 |}
        "image/png" 1%float)
     (trace (convertPdfToImage Sample.a4Browser Sample.invoice Sample.unset)) /\
  strictEquals (asNumber 1785) (PageViewport.width Sample.a4) = false /\
  strictEquals (asNumber 2525) (PageViewport.height Sample.a4) = false.
Proof.
  split; [found_in_trace|]. split; [found_in_trace|].
  split; vm_compute; reflexivity.
Qed.

(** C8, amended. On a call that reaches the render, the trace reads, in this
    order: page 1 is requested, its viewport is computed at scale 3, the
    canvas is created and its context acquired, the viewport's width and
    height are assigned to the canvas, and only then the page is rendered.
    No other page and no other scale is ever asked for.  The canvas keeps
    each assigned number as an [unsigned long]: its integer part, for a
    size below 2^31. *)
Theorem first_page_scale3_canvas_sized h file g page context viewport :
  In (EvRender page context viewport) (trace (convertPdfToImage h file g)) ->
  (exists pdf pre post,
      trace (convertPdfToImage h file g)
      = (pre
        ++ [EvGetPage pdf 1;
            EvGetViewport page 3%float;
            EvCreateElement "canvas";
            EvGetContext "2d";
            EvSetWidth (PageViewport.width viewport);
            EvSetHeight (PageViewport.height viewport);
            EvRender page context viewport]
        ++ post)%list /\
      getPage h pdf 1 = Normal page /\
      getViewport h page 3%float = Normal viewport) /\
  (forall pdf n,
      In (EvGetPage pdf n) (trace (convertPdfToImage h file g)) -> n = 1%Z) /\
  (forall p scale,
      In (EvGetViewport p scale) (trace (convertPdfToImage h file g)) ->
      scale = 3%float) /\
  (forall canvas mime quality,
      In (EvToBlob canvas mime quality) (trace (convertPdfToImage h file g)) ->
      Canvas.width canvas = Canvas.assigned 300 (PageViewport.width viewport) /\
      Canvas.height canvas = Canvas.assigned 150 (PageViewport.height viewport)) /\
  ((0 <= integerPart (PageViewport.width viewport) <= 2147483647)%Z ->
   (0 <= integerPart (PageViewport.height viewport) <= 2147483647)%Z ->
   forall canvas mime quality,
     In (EvToBlob canvas mime quality) (trace (convertPdfToImage h file g)) ->
     Canvas.width canvas = integerPart (PageViewport.width viewport) /\
     Canvas.height canvas = integerPart (PageViewport.height viewport)).
Proof.
  run_host; intros Hin; in_trace Hin.
  all: injection Hin as <- <- <-.
  all: split;
    [ match goal with
      | |- exists pdf pre post, ?a :: ?b :: ?c :: ?d :: ?e :: EvGetPage ?x _ :: _ = _ /\ _ =>
          exists x, [a; b; c; d; e]
      end;
      eexists; split; [reflexivity | split; assumption]
    | ].
  all: split; [intros xpdf xn H; in_trace H; now injection H as _ <- |].
  all: split; [intros xpage xscale H; in_trace H; now injection H as _ <- |].
  all: split;
    [ intros xcanvas xmime xquality H; in_trace H; injection H as <- _ _;
      split; reflexivity
    | intros Hw Hh xcanvas xmime xquality H; in_trace H;
      injection H as <- _ _; cbn [Canvas.width Canvas.height];
      now rewrite !assigned_integerPart ].
Qed.

Lemma first_page_scale3_canvas_sized_witness :
  exists pdf pre post,
    trace (convertPdfToImage Sample.a4Browser Sample.invoice Sample.unset)
    = (pre
       ++ [EvGetPage pdf 1;
           EvGetViewport (PageHandle 1) 3%float;
           EvCreateElement "canvas";
           EvGetContext "2d";
           EvSetWidth (PageViewport.width Sample.a4);
           EvSetHeight (PageViewport.height Sample.a4);
           EvRender (PageHandle 1) (ContextHandle 1) Sample.a4]
       ++ post)%list /\
    getPage Sample.a4Browser pdf 1 = Normal (PageHandle 1) /\
    getViewport Sample.a4Browser (PageHandle 1) 3%float = Normal Sample.a4.
Proof.
  destruct (first_page_scale3_canvas_sized Sample.a4Browser Sample.invoice
              Sample.unset (PageHandle 1) (ContextHandle 1) Sample.a4)
    as (Horder & _).
  - found_in_trace.
  - exact Horder.
Defined.

(** ** C9: the worker source *)

(** C9, as stated, fails: a second call in the same browser, made when the
    slot already holds the worker's location, loads the worker asset and
    writes the slot again. *)
Lemma registration_repeats :
  let first := convertPdfToImage Sample.browser Sample.invoice Sample.unset in
  let second := convertPdfToImage Sample.browser Sample.invoice (options first) in
  workerSrc (options first) = Some Sample.workerUrl /\
  filter isRegistration (trace second)
  = [EvImport "pdfjs-dist/build/pdf.worker.min.mjs?url";
     EvSetWorkerSrc Sample.workerUrl] /\
  filter isRegistration (trace second) <> [].
Proof. vm_compute. repeat split. discriminate. Qed.

(** C9, amended. The registration has no guard.  Every call made in a
    browser in which both imports succeed loads the worker asset and writes
    its location to the slot exactly once, whatever the slot held before;
    the write is idempotent in its value: the slot then holds that location,
    and it still does after a further call. *)
Theorem registration_unconditional h file g pdfjs src :
  typeof_window h <> "undefined" ->
  typeof_document h <> "undefined" ->
  import_pdfjs h = Normal pdfjs ->
  import_worker h = Normal src ->
  let run := convertPdfToImage h file g in
  filter isRegistration (trace run)
  = [EvImport "pdfjs-dist/build/pdf.worker.min.mjs?url"; EvSetWorkerSrc src] /\
  workerSrc (options run) = Some src /\
  workerSrc (options (convertPdfToImage h file (options run))) = Some src.
Proof.
  intros Hw Hd Hpdfjs Hworker.
  assert (Hbrowser : (typeof_window h =? "undefined")
                     || (typeof_document h =? "undefined") = false).
  { apply orb_false_iff. split; now apply String.eqb_neq. }
  assert (Hone : forall g0,
             filter isRegistration (trace (convertPdfToImage h file g0))
             = [EvImport "pdfjs-dist/build/pdf.worker.min.mjs?url";
                EvSetWorkerSrc src] /\
             workerSrc (options (convertPdfToImage h file g0)) = Some src).
  { intros g0. run_host; try congruence.
    all: replace a0 with src by congruence; split; reflexivity. }
  cbv zeta. split; [apply Hone|]. split; apply Hone.
Qed.

Lemma registration_unconditional_witness :
  workerSrc
    (options (convertPdfToImage Sample.browser Sample.invoice Sample.alreadySet))
  = Some Sample.workerUrl /\
  filter isRegistration
    (trace (convertPdfToImage Sample.browser Sample.invoice Sample.alreadySet))
  = [EvImport "pdfjs-dist/build/pdf.worker.min.mjs?url";
     EvSetWorkerSrc Sample.workerUrl].
Proof.
  destruct (registration_unconditional Sample.browser Sample.invoice
              Sample.alreadySet tt Sample.workerUrl)
    as (Htrace & Hslot & _); try reflexivity; try discriminate.
  split; [exact Hslot|exact Htrace].
Defined.

(** ** Failures before the export *)



(** X2. What the caller gets after an exception of the [try] block: the
    failure result whose error is the prefix, then the message of an [Error]
    that has one, the name of an [Error] whose message is empty, and a
    thrown string as it is; for a thrown [undefined] or [null] the read of
    [err.message] throws, and the call is rejected with that [TypeError]. *)
Theorem caught_exception_message h file g err :
  typeof_window h <> "undefined" ->
  typeof_document h <> "undefined" ->
  completion (tryBlock h file g) = Throw err ->
  settled (convertPdfToImage h file g)
  = match err with
    | ErrorObject name message =>
        Fulfilled
          {| imageUrl := ""; file := None;
             error := Some ("Failed to convert PDF: "
                            ++ if message =? "" then name else message) |}
    | StringValue s =>
        Fulfilled
          {| imageUrl := ""; file := None;
             error := Some ("Failed to convert PDF: " ++ s) |}
    | UndefinedValue | NullValue => Rejected (Err.cannotReadMessage err)
    end.
Proof.
  intros Hw Hd Hthrow.
  assert (Hbrowser : (typeof_window h =? "undefined")
                     || (typeof_document h =? "undefined") = false).
  { apply orb_false_iff. split; now apply String.eqb_neq. }
  unfold convertPdfToImage, settled, tryCatch. rewrite Hbrowser.
  destruct (tryBlock h file g) as [c g1 t1]. cbn in Hthrow. subst c.
  destruct err as [name message|s| |]; cbn; try reflexivity.
  do 3 f_equal.
  unfold Err.messageOrSelf, Err.truthy, Err.message, Err.toString.
  destruct (message =? "") eqn:Em; cbn; [|reflexivity].
  apply String.eqb_eq in Em. subst message.
  destruct (name =? "") eqn:En; [|reflexivity].
  apply String.eqb_eq in En. now subst name.
Qed.

Lemma caught_exception_message_witness :
  settled (convertPdfToImage Sample.aborted Sample.invoice Sample.unset)
  = Fulfilled
      {| imageUrl := ""; file := None;
         error := Some "Failed to convert PDF: AbortError" |} /\
  settled (convertPdfToImage Sample.bareString Sample.invoice Sample.unset)
  = Fulfilled
      {| imageUrl := ""; file := None;
         error := Some "Failed to convert PDF: worker terminated" |} /\
  settled (convertPdfToImage Sample.noReason Sample.invoice Sample.unset)
  = Rejected (Err.cannotReadMessage UndefinedValue).
Proof.
  split; [|split].
  - apply (caught_exception_message Sample.aborted Sample.invoice Sample.unset
             (ErrorObject "AbortError" ""));
      [discriminate | discriminate | reflexivity].
  - apply (caught_exception_message Sample.bareString Sample.invoice
             Sample.unset (StringValue "worker terminated"));
      [discriminate | discriminate | reflexivity].
  - apply (caught_exception_message Sample.noReason Sample.invoice
             Sample.unset UndefinedValue);
      [discriminate | discriminate | reflexivity].
Defined.

(** ** What the call touches *)

(** X3. The only thing a call changes in the engine's global options is the
    worker source, and only to the location the worker import gave; a call
    outside the browser, or one whose imports fail, leaves the options as
    they were. *)
Theorem options_frame h file g :
  let run := convertPdfToImage h file g in
  (options run = g \/
   exists src,
     import_worker h = Normal src /\
     In (EvSetWorkerSrc src) (trace run) /\
     options run = {| workerSrc := Some src |}) /\
  ((forall src, ~ In (EvSetWorkerSrc src) (trace run)) -> options run = g).
Proof.
  cbv zeta. run_host.
  all: split;
    [ first [ left; reflexivity
            | right; eexists; split; [reflexivity|];
              split; [repeat (first [left; reflexivity | right]) | reflexivity] ]
    | intros Hno; first [ reflexivity
                        | exfalso; eapply Hno;
                          repeat (first [left; reflexivity | right]) ] ].
Qed.

Lemma options_frame_witness :
  options (convertPdfToImage Sample.server Sample.invoice Sample.alreadySet)
  = Sample.alreadySet.
Proof.
  destruct (options_frame Sample.server Sample.invoice Sample.alreadySet)
    as (_ & Hframe).
  apply Hframe.
  intros src Hin. vm_compute in Hin. exact Hin.
Defined.

(** X4. A successful result is made of one blob: the blob that the export
    called back with is the one the object URL was created for, and its bits
    are the bits of the file; the [imageUrl] is what [URL.createObjectURL]
    returned for it. *)
Theorem success_is_made_of_one_blob h input g r f :
  settled (convertPdfToImage h input g) = Fulfilled r ->
  file r = Some f ->
  exists canvas blob,
    toBlob h canvas "image/png" 1%float = ToBlobCallsBack (Some blob) /\
    createObjectURL h blob = Normal (imageUrl r) /\
    In (EvCreateObjectURL blob) (trace (convertPdfToImage h input g)) /\
    File.bits f = Blob.bits blob /\
    error r = None.
Proof.
  run_host; intros Hr Hf; try discriminate Hr; injection Hr as <-;
    try discriminate Hf.
  injection Hf as <-. eexists. eexists.
  split; [eassumption|]. split; [eassumption|].
  split; [repeat (first [left; reflexivity | right])|]. split; reflexivity.
Qed.

Lemma success_is_made_of_one_blob_witness :
  exists canvas blob,
    toBlob Sample.browser canvas "image/png" 1%float
    = ToBlobCallsBack (Some blob) /\
    createObjectURL Sample.browser blob
    = Normal "blob:http://localhost:5173/6a1f0c3e" /\
    Blob.bits Sample.pngBlob = Blob.bits blob.
Proof.
  destruct (success_is_made_of_one_blob Sample.browser Sample.invoice
              Sample.unset _ _ eq_refl eq_refl)
    as (canvas & blob & H1 & H2 & _ & H3 & _).
  exists canvas, blob. split; [exact H1|]. split; [exact H2|exact H3].
Defined.

(** X5. Whenever the canvas is exported, it is as "image/png" and with
    quality 1. *)
Theorem export_is_png_at_full_quality h file g canvas mime quality :
  In (EvToBlob canvas mime quality) (trace (convertPdfToImage h file g)) ->
  mime = "image/png" /\ quality = 1%float.
Proof.
  run_host; intros Hin; in_trace Hin.
  all: injection Hin as _ <- <-; split; reflexivity.
Qed.

Lemma export_is_png_at_full_quality_witness :
  In (EvToBlob {| Canvas.width := 1836; Canvas.height := 2376 |}
        "image/png" 1%float)
     (trace (convertPdfToImage Sample.browser Sample.invoice Sample.unset)) /\
  ("image/png" = "image/png" /\ 1%float = 1%float).
Proof.
  assert (Hin : In (EvToBlob {| Canvas.width := 1836;
                                Canvas.height := 2376 |}
                      "image/png" 1%float)
                   (trace (convertPdfToImage Sample.browser Sample.invoice
                             Sample.unset))) by found_in_trace.
  split; [exact Hin|].
  exact (export_is_png_at_full_quality _ _ _ _ _ _ Hin).
Defined.

(** X6. When every collaborator answers (the export being asked of the
    canvas as the assignments left it), the call succeeds: it resolves to
    the object URL of the blob and a file with the derived name, the type
    "image/png" and the bits of the blob, and no error. *)
Theorem all_steps_succeed_gives_success
  h input g pdfjs src data pdf page viewport context blob url :
  typeof_window h <> "undefined" ->
  typeof_document h <> "undefined" ->
  import_pdfjs h = Normal pdfjs ->
  import_worker h = Normal src ->
  arrayBuffer h input = Normal data ->
  getDocument h data = Normal pdf ->
  getPage h pdf 1 = Normal page ->
  getViewport h page 3%float = Normal viewport ->
  getContext h "2d" = Some context ->
  render h page context viewport = Normal tt ->
  toBlob h
    {| Canvas.width := Canvas.assigned 300 (PageViewport.width viewport);
       Canvas.height := Canvas.assigned 150 (PageViewport.height viewport) |}
    "image/png" 1%float
  = ToBlobCallsBack (Some blob) ->
  createObjectURL h blob = Normal url ->
  settled (convertPdfToImage h input g)
  = Fulfilled
      {| imageUrl := url;
         file := Some {| File.name := pngFileName (File.name input);
                         File.type := "image/png";
                         File.bits := Blob.bits blob |};
         error := None |}.
Proof.
  intros Hw Hd Hpdfjs Hworker Hbuffer Hdoc Hpage Hviewport Hcontext Hrender
    Hblob Hurl.
  assert (Hbrowser : (typeof_window h =? "undefined")
                     || (typeof_document h =? "undefined") = false).
  { apply orb_false_iff. split; now apply String.eqb_neq. }
  unfold pngFileName. run_host.
  all: cbn [Canvas.width Canvas.height] in *.
  all: try congruence.
  all: repeat match goal with
         | H1 : ?x = Normal ?a, H2 : ?x = Normal ?b |- _ =>
             assert (a = b) by congruence; subst a; clear H1
         end.
  all: try congruence.
Qed.

Lemma all_steps_succeed_gives_success_witness :
  settled (convertPdfToImage Sample.browser Sample.invoice Sample.alreadySet)
  = Fulfilled
      {| imageUrl := "blob:http://localhost:5173/6a1f0c3e";
         file := Some {| File.name := pngFileName "invoice.PDF";
                         File.type := "image/png";
                         File.bits := Blob.bits Sample.pngBlob |};
         error := None |}.
Proof.
  apply (all_steps_succeed_gives_success Sample.browser Sample.invoice
           Sample.alreadySet tt Sample.workerUrl (File.bits Sample.invoice)
           (DocumentHandle 1) (PageHandle 1) Sample.letter (ContextHandle 1)
           Sample.pngBlob "blob:http://localhost:5173/6a1f0c3e");
    first [discriminate | reflexivity].
Defined.

(** X7. The engine is handed the bytes read from the input file and nothing
    else: the only file read is the one given, and the data of every
    [getDocument] call is what reading it returned. *)
Theorem engine_gets_the_bytes_of_the_file h input g :
  (forall f, In (EvArrayBuffer f) (trace (convertPdfToImage h input g)) ->
             f = input) /\
  (forall data, In (EvGetDocument data) (trace (convertPdfToImage h input g)) ->
                arrayBuffer h input = Normal data).
Proof.
  run_host; split; intros x Hin; in_trace Hin.
  all: now injection Hin as <-.
Qed.

Lemma engine_gets_the_bytes_of_the_file_witness :
  arrayBuffer Sample.browser Sample.invoice = Normal (File.bits Sample.invoice).
Proof.
  destruct (engine_gets_the_bytes_of_the_file Sample.browser Sample.invoice
              Sample.unset) as (_ & Hdata).
  apply Hdata. found_in_trace.
Defined.

Lemma baseName_empty_iff name :
  baseName name = "" <-> name = "" \/ isPdfExtension name = true.
Proof.
  split.
  - intros H. destruct (endsWithPdf name) eqn:E.
    + destruct (endsWithPdf_split _ E) as (base & ext & -> & Hext).
      rewrite (baseName_app _ _ Hext) in H. subst base. now right.
    + rewrite (baseName_other _ E) in H. now left.
  - intros [->|H]; [reflexivity|].
    exact (baseName_app "" name H).
Qed.

Lemma append_png_is_png s : s ++ ".png" = ".png" <-> s = "".
Proof.
  split; [|intros ->; reflexivity].
  intros H. apply (f_equal String.length) in H.
  rewrite append_length in H. cbn in H.
  destruct s; [reflexivity|cbn in H; lia].
Qed.

(** X8. The file a successful conversion produces is called just ".png"
    exactly when the input name is empty or is nothing but the extension
    (in any casing): a file called ".pdf" gives an image called ".png". *)
Theorem output_name_is_bare_png_iff h input g r f :
  settled (convertPdfToImage h input g) = Fulfilled r ->
  file r = Some f ->
  (File.name f = ".png" <->
   File.name input = "" \/ isPdfExtension (File.name input) = true).
Proof.
  assert (Hname : File.name f = baseName (File.name input) ++ ".png" ->
            (File.name f = ".png" <->
             File.name input = "" \/ isPdfExtension (File.name input) = true)).
  { intros ->. rewrite append_png_is_png. apply baseName_empty_iff. }
  run_host; intros Hr Hf; try discriminate Hr; injection Hr as <-;
    try discriminate Hf.
  injection Hf as <-. apply Hname. reflexivity.
Qed.

Lemma output_name_is_bare_png_iff_witness :
  exists r f,
    settled (convertPdfToImage Sample.browser (Sample.named ".PDF")
               Sample.unset) = Fulfilled r /\
    file r = Some f /\
    File.name f = ".png".
Proof.
  eexists. eexists. split; [reflexivity|]. split; [reflexivity|].
  apply (output_name_is_bare_png_iff Sample.browser (Sample.named ".PDF")
           Sample.unset _ _ eq_refl eq_refl).
  right. reflexivity.
Defined.

(** ** What a failure rules out *)

(** X9. Without a 2D context the call stops at the check: the canvas is
    never sized, nothing is rendered and nothing is exported. *)
Theorem no_context_no_render h file g :
  getContext h "2d" = None ->
  existsb afterContextCheck (trace (convertPdfToImage h file g)) = false.
Proof.
  intros Hnone. run_host; try congruence; reflexivity.
Qed.

Lemma no_context_no_render_witness :
  existsb afterContextCheck
    (trace (convertPdfToImage Sample.noContext Sample.invoice Sample.unset))
  = false.
Proof.
  exact (no_context_no_render Sample.noContext Sample.invoice Sample.unset
           eq_refl).
Defined.

(** X10. What happens at the export stays outside the catch clause: when
    [canvas.toBlob] throws, the call is rejected with that very exception;
    when it never calls back, or when [URL.createObjectURL] throws or does
    not return inside the callback, the call never settles. *)
Theorem export_failure_escapes h file g :
  (forall canvas mime quality err,
      In (EvToBlob canvas mime quality) (trace (convertPdfToImage h file g)) ->
      toBlob h canvas mime quality = ToBlobThrows err ->
      settled (convertPdfToImage h file g) = Rejected err) /\
  (forall canvas mime quality,
      In (EvToBlob canvas mime quality) (trace (convertPdfToImage h file g)) ->
      toBlob h canvas mime quality = ToBlobNeverCallsBack ->
      settled (convertPdfToImage h file g) = Pending) /\
  (forall blob,
      In (EvCreateObjectURL blob) (trace (convertPdfToImage h file g)) ->
      (forall url, createObjectURL h blob <> Normal url) ->
      settled (convertPdfToImage h file g) = Pending).
Proof.
  run_host; (split; [|split]).
  all: try (intros xcanvas xmime xquality xerr Hin Hout; in_trace Hin;
            injection Hin as <- <- <-;
            cbn [Canvas.width Canvas.height] in *; congruence).
  all: try (intros xcanvas xmime xquality Hin Hout; in_trace Hin;
            injection Hin as <- <- <-;
            cbn [Canvas.width Canvas.height] in *; congruence).
  all: intros xblob Hin Hout; in_trace Hin; injection Hin as <-;
    first [reflexivity | exfalso; eapply Hout; eassumption].
Qed.

Lemma export_failure_escapes_witness :
  settled (convertPdfToImage Sample.tainted Sample.invoice Sample.unset)
  = Rejected Sample.securityError /\
  settled (convertPdfToImage Sample.silent Sample.invoice Sample.unset)
  = Pending.
Proof.
  split.
  - destruct (export_failure_escapes Sample.tainted Sample.invoice
                Sample.unset) as (Hthrows & _).
    apply (Hthrows {| Canvas.width := 1836; Canvas.height := 2376 |}
             "image/png" 1%float);
      [found_in_trace | reflexivity].
  - destruct (export_failure_escapes Sample.silent Sample.invoice
                Sample.unset) as (_ & Hsilent & _).
    apply (Hsilent {| Canvas.width := 1836; Canvas.height := 2376 |}
             "image/png" 1%float);
      [found_in_trace | reflexivity].
Defined.

Lemma pngFileName_length name :
  String.length (pngFileName name)
  = if endsWithPdf name then String.length name else String.length name + 4.
Proof.
  unfold pngFileName. rewrite append_length. cbn [String.length].
  destruct (endsWithPdf name) eqn:E.
  - destruct (endsWithPdf_split _ E) as (base & ext & -> & Hext).
    rewrite (baseName_app _ _ Hext), append_length,
      (isPdfExtension_length _ Hext). reflexivity.
  - now rewrite (baseName_other _ E).
Qed.

(** X11. The name of the file a successful conversion produces is as long
    as the input name when that ends with the extension, and four
    characters longer otherwise. *)
Theorem output_name_length h input g r f :
  settled (convertPdfToImage h input g) = Fulfilled r ->
  file r = Some f ->
  String.length (File.name f)
  = if endsWithPdf (File.name input)
    then String.length (File.name input)
    else String.length (File.name input) + 4.
Proof.
  run_host; intros Hr Hf; try discriminate Hr; injection Hr as <-;
    try discriminate Hf.
  injection Hf as <-. exact (pngFileName_length (File.name input)).
Qed.

Lemma output_name_length_witness :
  exists r f,
    settled (convertPdfToImage Sample.browser Sample.invoice Sample.unset)
    = Fulfilled r /\
    file r = Some f /\
    String.length (File.name f) = String.length "invoice.PDF".
Proof.
  eexists. eexists. split; [reflexivity|]. split; [reflexivity|].
  exact (output_name_length Sample.browser Sample.invoice Sample.unset
           _ _ eq_refl eq_refl).
Defined.

(** X12. No step has a timeout: when a step of the [try] block that the
    call makes never comes back, that step is the last thing the call does
    and the call never settles. *)
Theorem hung_step_never_settles h file g e :
  In e (trace (convertPdfToImage h file g)) ->
  stepOutcome h e = Some NeverSettled ->
  settled (convertPdfToImage h file g) = Pending /\
  exists before, trace (convertPdfToImage h file g) = (before ++ [e])%list.
Proof.
  intros Hin Hout. revert Hin Hout.
  run_host; intros Hin; in_trace Hin; subst e;
    cbn [stepOutcome String.eqb Ascii.eqb Bool.eqb];
    try match goal with
        | |- context [outcomeOf ?x] =>
            match goal with Heq : x = _ |- _ => rewrite Heq end
        end;
    cbn [outcomeOf]; intros Hout; try discriminate Hout.
  all: split; [reflexivity|].
  all: match goal with
       | |- exists before, ?l = _ => exists (removelast l); reflexivity
       end.
Qed.

Lemma hung_step_never_settles_witness :
  settled (convertPdfToImage Sample.hung Sample.invoice Sample.unset) = Pending.
Proof.
  apply (hung_step_never_settles Sample.hung Sample.invoice Sample.unset
           (EvGetDocument (File.bits Sample.invoice)));
    [found_in_trace | reflexivity].
Defined.
